(** * Meeting pipeline: speaker diarization and pipeline orchestrator

    A shallow embedding of [meetings/diarization.ts]
    ([SpeakerDiarizationServiceImpl]) and of the meeting pipeline
    orchestrator ([MeetingPipelineServiceImpl]), together with the
    properties of the two that the specification states.

    Conventions of the embedding.
    - A JavaScript [number] that carries a time, a confidence or a score is
      a rational [Q]: arithmetic is exact, and NaN and the infinities are
      absent.  Counts and percentages produced by [Math.round] are [Z].
    - A JavaScript [Map] or [Set] iterates in insertion order and the code
      relies on it for tie-breaking, so maps are association lists that
      keep the position of a key once inserted.
    - An optional field [f?: T] is an [option T]; the tests [x || d] and
      [if (x)] follow JavaScript truthiness (the empty string and [0] are
      falsy).
    - [Array.prototype.sort] is stable; it is embedded as a stable
      insertion sort on the key the comparator subtracts. *)

From Stdlib Require Import List String Ascii Bool Arith ZArith QArith Qround Qabs.
From Stdlib Require Import Lia Lqa Permutation Sorted DecimalString.
Import ListNotations.

Local Open Scope string_scope.
Local Open Scope Q_scope.

(** ** JavaScript helpers *)

Module Js.

(** [a > b] on numbers. *)
Definition gtb (a b : Q) : bool := negb (Qle_bool a b).

(** [a >= b] and [a <= b] on numbers. *)
Definition geb (a b : Q) : bool := Qle_bool b a.
Definition leb (a b : Q) : bool := Qle_bool a b.

(** Truthiness of an optional string: [undefined] and [''] are falsy. *)
Definition truthy (s : option string) : bool :=
  match s with
  | Some x => negb (x =? "")%string
  | None => false
  end.

(** [s || d] for an optional string [s]. *)
Definition strOr (s : option string) (d : string) : string :=
  match s with
  | Some x => if (x =? "")%string then d else x
  | None => d
  end.

(** [s || undefined]. *)
Definition strOrUndefined (s : option string) : option string :=
  if truthy s then s else None.

(** [c || d] for an optional number [c]: [undefined] and [0] are falsy. *)
Definition numOr (c : option Q) (d : Q) : Q :=
  match c with
  | Some x => if Qeq_bool x 0 then d else x
  | None => d
  end.

(** [Math.round]: nearest integer, halves towards plus infinity. *)
Definition Math_round (x : Q) : Z := Qfloor (x + (1 # 2)).

(** [Math.max] on two counts. *)
Definition Math_max (a b : nat) : nat := Nat.max a b.

(** Decimal rendering of a count inside a template string. *)
Definition showNat (n : nat) : string := NilEmpty.string_of_uint (Nat.to_uint n).

(** [\s] restricted to the ASCII range: space, tab, LF, VT, FF, CR. *)
Definition isWhitespace (c : ascii) : bool :=
  let n := nat_of_ascii c in
  ((n =? 32) || ((9 <=? n) && (n <=? 13)))%nat.

(** [text.split(/\s+/).filter(Boolean).length]: the number of maximal
    runs of non-whitespace characters. *)
Fixpoint countWordsFrom (inWord : bool) (s : string) : nat :=
  match s with
  | EmptyString => 0%nat
  | String c rest =>
      if isWhitespace c then countWordsFrom false rest
      else ((if inWord then 0 else 1) + countWordsFrom true rest)%nat
  end.

Definition countWords (s : string) : nat := countWordsFrom false s.

(** *** Insertion-ordered maps *)

Section InsertionOrderedMap.
Context {K V : Type} (eqb : K -> K -> bool).

Fixpoint get (m : list (K * V)) (k : K) : option V :=
  match m with
  | [] => None
  | (k', v) :: rest => if eqb k' k then Some v else get rest k
  end.

Definition has (m : list (K * V)) (k : K) : bool :=
  match get m k with Some _ => true | None => false end.

(** [m.set(k, v)]: an existing key keeps its position. *)
Fixpoint set (m : list (K * V)) (k : K) (v : V) : list (K * V) :=
  match m with
  | [] => [(k, v)]
  | (k', v') :: rest =>
      if eqb k' k then (k', v) :: rest else (k', v') :: set rest k v
  end.

Definition values (m : list (K * V)) : list V := map snd m.
End InsertionOrderedMap.

(** *** Stable sort by a numeric key *)

Section SortBy.
Context {A : Type} (key : A -> Q).

Fixpoint insertBy (x : A) (l : list A) : list A :=
  match l with
  | [] => [x]
  | y :: rest =>
      if Qle_bool (key x) (key y) then x :: y :: rest
      else y :: insertBy x rest
  end.

(** [[...l].sort((a, b) => key(a) - key(b))]. *)
Fixpoint sortBy (l : list A) : list A :=
  match l with
  | [] => []
  | x :: rest => insertBy x (sortBy rest)
  end.
End SortBy.

End Js.

(** ** Data model ([meetings/types.ts]) *)

Inductive Expression : Set :=
| neutral | happy | sad | angry | fearful | disgusted | surprised | smiling
| frowning | confused | skeptical | thinking | interested | bored | eye_roll.

Scheme Equality for Expression.

Inductive Level : Set := high | medium | low.

Inductive AudioSource : Set := whisper | recall.

Record HeadPose : Set := mkHeadPose {
  pitch : Q;
  yaw : Q;
  roll : Q
}.

Record RawTranscriptSegment : Set := mkRawTranscriptSegment {
  rts_text : string;
  rts_startTime : Q;
  rts_endTime : Q;
  rts_speakerLabel : option string;
  rts_confidence : option Q
}.

Record VisualObservation : Set := mkVisualObservation {
  vo_timestamp : Q;
  vo_participantId : string;
  vo_participantName : option string;
  vo_isSpeaking : bool;
  vo_speakingConfidence : Q;
  vo_expression : Expression;
  vo_expressionConfidence : Q;
  vo_headPose : option HeadPose
}.

Record DiarizedSegment : Set := mkDiarizedSegment {
  ds_text : string;
  ds_startTime : Q;
  ds_endTime : Q;
  ds_speakerId : string;
  ds_speakerName : string;
  ds_confidence : Q;
  ds_dominantExpression : Expression;
  ds_expressionConfidence : Q;
  ds_expressions : list (Expression * Z);
  ds_isSpeaking : bool;
  ds_engagement : Level;
  ds_audioSource : AudioSource;
  ds_visualMatch : bool
}.

Record DiarizedParticipant : Set := mkDiarizedParticipant {
  dp_id : string;
  dp_name : string;
  dp_totalSpeakingTime : Q;
  dp_speakingPercentage : Z;
  dp_segmentCount : nat;
  dp_dominantExpression : Expression;
  dp_expressionTimeline : list (Q * Expression);
  dp_engagementLevel : Level;
  dp_wordCount : nat
}.

Record DiarizationResult : Set := mkDiarizationResult {
  dr_segments : list DiarizedSegment;
  dr_participants : list DiarizedParticipant;
  dr_duration : Q;
  dr_quality : Level
}.

Record MappedSpeaker : Set := mkMappedSpeaker {
  ms_participantId : string;
  ms_name : string
}.

(** ** The diarization engine ([meetings/diarization.ts]) *)

Module Diarization.

Record SpeakerDiarizationServiceImpl : Set := mkService {
  observations : list VisualObservation
}.

Definition addVisualObservation (this : SpeakerDiarizationServiceImpl)
    (observation : VisualObservation) : SpeakerDiarizationServiceImpl :=
  {| observations := (observations this ++ [observation])%list |}.

Definition getVisualObservations (this : SpeakerDiarizationServiceImpl)
    : list VisualObservation :=
  observations this.

Definition reset (_ : SpeakerDiarizationServiceImpl) : SpeakerDiarizationServiceImpl :=
  {| observations := [] |}.

(** [v.timestamp >= seg.startTime && v.timestamp <= seg.endTime] *)
Definition inWindow (seg : RawTranscriptSegment) (v : VisualObservation) : bool :=
  Js.geb (vo_timestamp v) (rts_startTime seg) && Js.leb (vo_timestamp v) (rts_endTime seg).

(** [v.isSpeaking && v.speakingConfidence > 0.3] *)
Definition isSpeakingObs (v : VisualObservation) : bool :=
  vo_isSpeaking v && Js.gtb (vo_speakingConfidence v) (3 # 10).

(** The accumulation loop shared by [diarize] and
    [mapSpeakerLabelsToParticipants]:
    [scores.set(pid, (scores.get(pid) || 0) + obs.speakingConfidence)]. *)
Definition addScores (scores : list (string * Q)) (obs : list VisualObservation)
    : list (string * Q) :=
  fold_left
    (fun m o =>
       Js.set String.eqb m (vo_participantId o)
         (Js.numOr (Js.get String.eqb m (vo_participantId o)) 0 + vo_speakingConfidence o))
    obs scores.

(** The selection loop: [if (score > maxScore) { maxScore = score; id = pid }],
    started from the identifier [init] and the score [0]. *)
Definition pickBest (init : string) (scores : list (string * Q)) : string * Q :=
  fold_left
    (fun acc entry =>
       if Js.gtb (snd entry) (snd acc) then (fst entry, snd entry) else acc)
    scores (init, 0).

Definition setAdd (s : list string) (x : string) : list string :=
  if existsb (String.eqb x) s then s else (s ++ [x])%list.

Definition buildSpeakerNameMap (observations : list VisualObservation)
    (participantNames : list string) : list (string * string) :=
  let nameMap :=
    fold_left
      (fun m obs =>
         match vo_participantName obs with
         | Some name =>
             if negb (name =? "")%string && negb (Js.has String.eqb m (vo_participantId obs))
             then Js.set String.eqb m (vo_participantId obs) name
             else m
         | None => m
         end)
      observations [] in
  let uniqueParticipants :=
    fold_left (fun s obs => setAdd s (vo_participantId obs)) observations [] in
  let named :=
    fold_left
      (fun acc pid =>
         let '(m, nameIndex) := acc in
         if negb (Js.has String.eqb m pid) && (nameIndex <? List.length participantNames)%nat
         then (Js.set String.eqb m pid (nth nameIndex participantNames ""), S nameIndex)
         else (m, nameIndex))
      uniqueParticipants (nameMap, 0%nat) in
  let numbered :=
    fold_left
      (fun acc pid =>
         let '(m, unknownCount) := acc in
         if negb (Js.has String.eqb m pid)
         then (Js.set String.eqb m pid ("Participant " ++ Js.showNat unknownCount),
               S unknownCount)
         else (m, unknownCount))
      uniqueParticipants (fst named, 1%nat) in
  fst numbered.

Definition mapSpeakerLabelsToParticipants (transcript : list RawTranscriptSegment)
    (visual : list VisualObservation) : list (string * MappedSpeaker) :=
  let segmentsByLabel :=
    fold_left
      (fun m seg =>
         match rts_speakerLabel seg with
         | Some label =>
             if (label =? "")%string then m
             else
               let existing :=
                 match Js.get String.eqb m label with Some l => l | None => [] end in
               Js.set String.eqb m label (existing ++ [seg])%list
         | None => m
         end)
      transcript [] in
  fold_left
    (fun labelMap entry =>
       let '(label, segments) := entry in
       let participantScores :=
         fold_left
           (fun scores seg =>
              addScores scores
                (filter (fun v => inWindow seg v && isSpeakingObs v) visual))
           segments [] in
       let bestPid := fst (pickBest "" participantScores) in
       if negb (bestPid =? "")%string then
         let found := find (fun v => (vo_participantId v =? bestPid)%string) visual in
         let name :=
           Js.strOr (match found with Some v => vo_participantName v | None => None end)
             label in
         Js.set String.eqb labelMap label
           {| ms_participantId := bestPid; ms_name := name |}
       else labelMap)
    segmentsByLabel [].

Record ExpressionAnalysis : Set := mkExpressionAnalysis {
  ea_dominant : Expression;
  ea_confidence : Q;
  ea_distribution : list (Expression * Z)
}.

Definition countExpressions (exprs : list Expression) : list (Expression * nat) :=
  fold_left
    (fun counts e =>
       Js.set Expression_beq counts e
         (match Js.get Expression_beq counts e with Some c => c | None => 0%nat end + 1)%nat)
    exprs [].

(** [if (count > maxCount) { dominant = expr; maxCount = count }] from
    [('neutral', 0)]. *)
Definition pickDominant (init : Expression) (counts : list (Expression * nat))
    : Expression * nat :=
  fold_left
    (fun acc entry => if (snd acc <? snd entry)%nat then entry else acc)
    counts (init, 0%nat).

Definition ofNat (n : nat) : Q := inject_Z (Z.of_nat n).

Definition analyzeExpressionsDuringSegment (observations : list VisualObservation)
    : ExpressionAnalysis :=
  match observations with
  | [] =>
      {| ea_dominant := neutral; ea_confidence := 1 # 2;
         ea_distribution := [(neutral, 100%Z)] |}
  | _ :: _ =>
      let counts := countExpressions (map vo_expression observations) in
      let dominant := fst (pickDominant neutral counts) in
      let total := List.length observations in
      let distribution :=
        Js.sortBy (fun e : Expression * Z => - inject_Z (snd e))
          (map (fun e : Expression * nat =>
                  (fst e, Js.Math_round ((ofNat (snd e) / ofNat total) * 100)))
             counts) in
      let avgConfidence :=
        fold_left (fun s o => s + vo_expressionConfidence o) observations 0
        / ofNat total in
      {| ea_dominant := dominant; ea_confidence := avgConfidence;
         ea_distribution := distribution |}
  end.

Definition engagementOf (obs : VisualObservation) : Q :=
  (match vo_headPose obs with
   | Some hp =>
       if Js.gtb (Qabs (yaw hp)) 30 || Js.gtb (Qabs (pitch hp)) 20 then - (1) else 1
   | None => 1 # 2
   end)
  + (if negb (Expression_beq (vo_expression obs) neutral)
        && negb (Expression_beq (vo_expression obs) bored)
     then 1 # 2 else 0)
  + (if vo_isSpeaking obs then 1 else 0).

Definition assessEngagement (observations : list VisualObservation) : Level :=
  match observations with
  | [] => medium
  | _ :: _ =>
      let engagementScore :=
        fold_left (fun s obs => s + engagementOf obs) observations 0 in
      let avgScore := engagementScore / ofNat (List.length observations) in
      if Js.gtb avgScore 1 then high
      else if Js.gtb avgScore (3 # 10) then medium
      else low
  end.

(** The speaker attribution of one transcript segment: the two "tries" of
    the loop body of [diarize]. *)
Definition attributeSpeaker
    (speakerNameMap : list (string * string))
    (speakerLabelMap : list (string * MappedSpeaker))
    (seg : RawTranscriptSegment) (overlapping : list VisualObservation)
    : string * string * bool :=
  let speakerId := "unknown" in
  let speakerName := Js.strOr (rts_speakerLabel seg) "Unknown" in
  let speakingObs := filter isSpeakingObs overlapping in
  match speakingObs with
  | _ :: _ =>
      let speakerCounts := addScores [] speakingObs in
      let speakerId := fst (pickBest speakerId speakerCounts) in
      let speakerName :=
        Js.strOr (Js.get String.eqb speakerNameMap speakerId) speakerName in
      (speakerId, speakerName, true)
  | [] =>
      match rts_speakerLabel seg with
      | Some label =>
          if negb (label =? "")%string then
            match Js.get String.eqb speakerLabelMap label with
            | Some mapped => (ms_participantId mapped, ms_name mapped, false)
            | None => (speakerId, speakerName, false)
            end
          else (speakerId, speakerName, false)
      | None => (speakerId, speakerName, false)
      end
  end.

(** The body of the loop [for (const seg of sortedTranscript)]. *)
Definition diarizeSegment
    (sortedVisual : list VisualObservation)
    (speakerNameMap : list (string * string))
    (speakerLabelMap : list (string * MappedSpeaker))
    (seg : RawTranscriptSegment) : DiarizedSegment :=
  let overlapping := filter (inWindow seg) sortedVisual in
  let '(speakerId, speakerName, visualMatch) :=
    attributeSpeaker speakerNameMap speakerLabelMap seg overlapping in
  let expressionAnalysis := analyzeExpressionsDuringSegment overlapping in
  let engagement := assessEngagement overlapping in
  {| ds_text := rts_text seg;
     ds_startTime := rts_startTime seg;
     ds_endTime := rts_endTime seg;
     ds_speakerId := speakerId;
     ds_speakerName := speakerName;
     ds_confidence := if visualMatch then 9 # 10 else Js.numOr (rts_confidence seg) (1 # 2);
     ds_dominantExpression := ea_dominant expressionAnalysis;
     ds_expressionConfidence := ea_confidence expressionAnalysis;
     ds_expressions := ea_distribution expressionAnalysis;
     ds_isSpeaking := true;
     ds_engagement := engagement;
     ds_audioSource := whisper;
     ds_visualMatch := visualMatch |}.

(** First loop of [buildParticipantSummaries]: one entry per distinct
    [speakerId], in first-seen order, updated in place. *)
Definition addSegment (participantMap : list (string * DiarizedParticipant))
    (seg : DiarizedSegment) : list (string * DiarizedParticipant) :=
  let participant :=
    match Js.get String.eqb participantMap (ds_speakerId seg) with
    | Some p => p
    | None =>
        {| dp_id := ds_speakerId seg;
           dp_name := ds_speakerName seg;
           dp_totalSpeakingTime := 0;
           dp_speakingPercentage := 0;
           dp_segmentCount := 0;
           dp_dominantExpression := neutral;
           dp_expressionTimeline := [];
           dp_engagementLevel := medium;
           dp_wordCount := 0 |}
    end in
  Js.set String.eqb participantMap (ds_speakerId seg)
    {| dp_id := dp_id participant;
       dp_name := dp_name participant;
       dp_totalSpeakingTime :=
         dp_totalSpeakingTime participant + (ds_endTime seg - ds_startTime seg);
       dp_speakingPercentage := dp_speakingPercentage participant;
       dp_segmentCount := S (dp_segmentCount participant);
       dp_dominantExpression := dp_dominantExpression participant;
       dp_expressionTimeline :=
         (dp_expressionTimeline participant
            ++ [(ds_startTime seg, ds_dominantExpression seg)])%list;
       dp_engagementLevel := dp_engagementLevel participant;
       dp_wordCount := (dp_wordCount participant + Js.countWords (ds_text seg))%nat |}.

(** [[...participantMap.values()].reduce((s, p) => s + p.totalSpeakingTime, 0)] *)
Definition totalSpeakingOf (participants : list DiarizedParticipant) : Q :=
  fold_left (fun s p => s + dp_totalSpeakingTime p) participants 0.

(** Second loop of [buildParticipantSummaries], for one participant. *)
Definition finishParticipant (totalSpeaking : Q) (visual : list VisualObservation)
    (participant : DiarizedParticipant) : DiarizedParticipant :=
  let speakingPercentage :=
    if Js.gtb totalSpeaking 0
    then Js.Math_round ((dp_totalSpeakingTime participant / totalSpeaking) * 100)
    else 0%Z in
  let exprCounts := countExpressions (map snd (dp_expressionTimeline participant)) in
  let dominantExpression :=
    fst (pickDominant (dp_dominantExpression participant) exprCounts) in
  let participantVisual :=
    filter (fun v => (vo_participantId v =? dp_id participant)%string) visual in
  let engagementLevel :=
    match participantVisual with
    | _ :: _ =>
        let engaged :=
          List.length
            (filter (fun v => negb (Expression_beq (vo_expression v) bored)
                              && negb (Expression_beq (vo_expression v) neutral))
               participantVisual) in
        let ratio := ofNat engaged / ofNat (List.length participantVisual) in
        if Js.gtb ratio (1 # 2) then high
        else if Js.gtb ratio (2 # 10) then medium
        else low
    | [] => dp_engagementLevel participant
    end in
  {| dp_id := dp_id participant;
     dp_name := dp_name participant;
     dp_totalSpeakingTime := dp_totalSpeakingTime participant;
     dp_speakingPercentage := speakingPercentage;
     dp_segmentCount := dp_segmentCount participant;
     dp_dominantExpression := dominantExpression;
     dp_expressionTimeline := dp_expressionTimeline participant;
     dp_engagementLevel := engagementLevel;
     dp_wordCount := dp_wordCount participant |}.

Definition buildParticipantSummaries (segments : list DiarizedSegment)
    (visual : list VisualObservation) (_nameMap : list (string * string))
    : list DiarizedParticipant :=
  let participantMap := fold_left addSegment segments [] in
  let totalSpeaking := totalSpeakingOf (Js.values participantMap) in
  map (finishParticipant totalSpeaking visual) (Js.values participantMap).

Definition sortedTranscriptOf (transcriptSegments : list RawTranscriptSegment)
    : list RawTranscriptSegment :=
  Js.sortBy rts_startTime transcriptSegments.

Definition sortedVisualOf (this : SpeakerDiarizationServiceImpl)
    (visualObservations : list VisualObservation) : list VisualObservation :=
  Js.sortBy vo_timestamp (observations this ++ visualObservations)%list.

(** [diarize].  The service object is threaded through the call: the
    method reads [this.observations] and the result pairs the
    [DiarizationResult] with the service as the call leaves it. *)
Definition diarize (this : SpeakerDiarizationServiceImpl)
    (transcriptSegments : list RawTranscriptSegment)
    (visualObservations : list VisualObservation)
    (participantNames : list string)
    : DiarizationResult * SpeakerDiarizationServiceImpl :=
  let sortedTranscript := sortedTranscriptOf transcriptSegments in
  let sortedVisual := sortedVisualOf this visualObservations in
  let speakerNameMap := buildSpeakerNameMap sortedVisual participantNames in
  let speakerLabelMap := mapSpeakerLabelsToParticipants sortedTranscript sortedVisual in
  let segments :=
    map (diarizeSegment sortedVisual speakerNameMap speakerLabelMap) sortedTranscript in
  let participants := buildParticipantSummaries segments sortedVisual speakerNameMap in
  let duration :=
    match sortedTranscript with
    | [] => 0
    | first :: _ => rts_endTime (last sortedTranscript first) - rts_startTime first
    end in
  let matchRate :=
    ofNat (List.length (filter ds_visualMatch segments))
    / ofNat (Js.Math_max (List.length segments) 1) in
  let quality :=
    if Js.gtb matchRate (7 # 10) then high
    else if Js.gtb matchRate (3 # 10) then medium
    else low in
  ({| dr_segments := segments; dr_participants := participants;
      dr_duration := duration; dr_quality := quality |},
   this).

(** The end-to-end scenario of the specification: one segment
    [hello] over [0, 2] and one observation of [p1] ("Ann") at [1]. *)
Definition scenarioSegment : RawTranscriptSegment :=
  {| rts_text := "hello"; rts_startTime := 0; rts_endTime := 2;
     rts_speakerLabel := None; rts_confidence := None |}.

Definition scenarioObservation : VisualObservation :=
  {| vo_timestamp := 1; vo_participantId := "p1"; vo_participantName := Some "Ann";
     vo_isSpeaking := true; vo_speakingConfidence := 9 # 10; vo_expression := happy;
     vo_expressionConfidence := 8 # 10; vo_headPose := None |}.

End Diarization.

(** ** The pipeline orchestrator ([MeetingPipelineServiceImpl]) *)

Module RecallBotStatus.
Inductive t : Set :=
| ready | joining | in_waiting_room | in_call | recording | processing
| done | error | fatal.
End RecallBotStatus.

Module PipelineStatus.
Inductive t : Set :=
| idle | bot_joining | capturing | bot_processing | transcribing | analyzing
| generating_review | complete | error.
End PipelineStatus.

Module PipelineEventType.
Inductive t : Set :=
| status_changed | participant_detected | transcript_segment
| expression_update | review_ready | error.
End PipelineEventType.

Module Pipeline.

Import Diarization.

(** *** Types of the collaborators *)

Record RecallRecording : Set := mkRecallRecording {
  rec_id : string;
  rec_audioUrl : option string
}.

Record RecallTranscriptSegment : Set := mkRecallTranscriptSegment {
  rt_speakerId : nat;
  rt_speakerName : string;
  rt_text : string;
  rt_startTime : Q;
  rt_endTime : Q;
  rt_confidence : option Q
}.

Record RecallTranscript : Set := mkRecallTranscript {
  rtr_id : string;
  rtr_segments : list RecallTranscriptSegment
}.

Record TranscriptSegment : Set := mkTranscriptSegment {
  ts_id : string;
  ts_speakerName : string;
  ts_text : string;
  ts_startTime : Q;
  ts_endTime : Q;
  ts_confidence : Q
}.

Record TranscriptionResult : Set := mkTranscriptionResult {
  tr_segments : list TranscriptSegment;
  tr_fullText : string
}.

Record DetectedParticipant : Set := mkDetectedParticipant {
  det_id : string;
  det_name : option string;
  det_expressionHistory : list (Q * string * Q)
}.

Record AnalysisInput : Set := mkAnalysisInput {
  ai_meetingTitle : string;
  ai_meetingDate : Z;
  ai_duration : Z;
  ai_platform : string;
  ai_participants : list (string * string);
  ai_transcriptSegments : list (string * string * Q * Q);
  ai_expressionData : list (string * Q * string * Q)
}.

(** Of a [MeetingReview] the orchestrator reads the [id] only. *)
Record MeetingReview : Set := mkMeetingReview {
  mr_id : string;
  mr_title : string;
  mr_summary : string
}.

Inductive Platform : Set := teams | zoom | meet | other.

Definition platformName (p : Platform) : string :=
  match p with
  | teams => "teams" | zoom => "zoom" | meet => "meet" | other => "other"
  end.

Record PipelineConfig : Set := mkPipelineConfig {
  cfg_meetingUrl : string;
  cfg_meetingTitle : string;
  cfg_platform : Platform;
  cfg_captureSourceId : option string;
  cfg_participantNames : option (list string);
  cfg_recallApiKey : option string
}.

Record PipelineState : Set := mkPipelineState {
  ps_status : PipelineStatus.t;
  ps_meetingTitle : string;
  ps_meetingUrl : option string;
  ps_platform : string;
  ps_botId : option string;
  ps_botSessionId : option string;
  ps_captureActive : bool;
  ps_participantCount : nat;
  ps_segmentCount : nat;
  ps_duration : Z;
  ps_error : option string;
  ps_reviewId : option string;
  ps_startedAt : option Z
}.

Inductive EventData : Set :=
| StateData (state : PipelineState)
| ErrorData (message : string)
| ReviewReadyData (reviewId : string) (review : MeetingReview).

Record PipelineEvent : Set := mkPipelineEvent {
  ev_type : PipelineEventType.t;
  ev_data : EventData;
  ev_timestamp : Z
}.

(** A call or a promise either returns a value or throws an [Error]
    carrying a message. *)
Inductive Outcome (A : Type) : Type :=
| Return (a : A)
| Throw (message : string).
Arguments Return {A} a.
Arguments Throw {A} message.

(** How [electron] answers, when [window.electron] exists. *)
Record Electron : Set := mkElectron {
  el_startCapture : Outcome unit;
  el_stopCapture : option (Outcome unit)
}.

(** The collaborators of one run: the answers of the bot client, of
    [window.electron], of the transcription and review services and of
    face detection.  [env_getBotStatus botId i] is the answer to the
    [i]-th status poll, which takes [env_pollLatency i] milliseconds. *)
Record Env : Type := mkEnv {
  env_createBot : string -> Outcome string;
  env_electron : option Electron;
  env_stopBot : string -> Outcome unit;
  env_getBotStatus : string -> nat -> Outcome (option RecallBotStatus.t);
  env_pollLatency : nat -> nat;
  env_getRecording : string -> Outcome (option RecallRecording);
  env_getTranscript : string -> Outcome (option RecallTranscript);
  env_transcribeFile : string -> Outcome TranscriptionResult;
  env_generateReview : AnalysisInput -> Outcome MeetingReview;
  env_faceParticipants : list DetectedParticipant
}.

(** Calls made to collaborators, in order. *)
Inductive Call : Set :=
| CallCreateBot (meetingUrl : string)
| CallStopBot (botId : string)
| CallGetBotStatus (botId : string) (poll : nat)
| CallGetRecording (botId : string)
| CallGetTranscript (botId : string)
| CallTranscribeFile (audioPath : string)
| CallDiarize (transcriptSegments : list RawTranscriptSegment)
| CallGenerateReview (input : AnalysisInput).

(** The orchestrator object together with the part of the host it
    touches: the clock behind [Date.now()], the interval timers that
    [setInterval] created and [clearInterval] has not cleared, the events
    passed to [emit], the console, and the calls made so far. *)
Record Machine : Set := mkMachine {
  state : PipelineState;
  diarization : SpeakerDiarizationServiceImpl;
  durationTimer : option nat;
  captureCleanup : bool;
  config : option PipelineConfig;
  audioFilePath : option string;
  clock : Z;
  liveIntervals : list nat;
  nextHandle : nat;
  emitted : list PipelineEvent;
  console : list string;
  calls : list Call
}.

Definition initialState : PipelineState :=
  {| ps_status := PipelineStatus.idle; ps_meetingTitle := ""; ps_meetingUrl := None;
     ps_platform := ""; ps_botId := None; ps_botSessionId := None;
     ps_captureActive := false; ps_participantCount := 0; ps_segmentCount := 0;
     ps_duration := 0; ps_error := None; ps_reviewId := None; ps_startedAt := None |}.

Definition newMachine (now : Z) : Machine :=
  {| state := initialState; diarization := {| observations := [] |};
     durationTimer := None; captureCleanup := false; config := None;
     audioFilePath := None; clock := now; liveIntervals := []; nextHandle := 1;
     emitted := []; console := []; calls := [] |}.

(** *** Field updates *)

Definition withStatus (s : PipelineStatus.t) (st : PipelineState) : PipelineState :=
  mkPipelineState s (ps_meetingTitle st) (ps_meetingUrl st) (ps_platform st)
    (ps_botId st) (ps_botSessionId st) (ps_captureActive st) (ps_participantCount st)
    (ps_segmentCount st) (ps_duration st) (ps_error st) (ps_reviewId st) (ps_startedAt st).

Definition withBotId (b : option string) (st : PipelineState) : PipelineState :=
  mkPipelineState (ps_status st) (ps_meetingTitle st) (ps_meetingUrl st) (ps_platform st)
    b (ps_botSessionId st) (ps_captureActive st) (ps_participantCount st)
    (ps_segmentCount st) (ps_duration st) (ps_error st) (ps_reviewId st) (ps_startedAt st).

Definition withCaptureActive (b : bool) (st : PipelineState) : PipelineState :=
  mkPipelineState (ps_status st) (ps_meetingTitle st) (ps_meetingUrl st) (ps_platform st)
    (ps_botId st) (ps_botSessionId st) b (ps_participantCount st)
    (ps_segmentCount st) (ps_duration st) (ps_error st) (ps_reviewId st) (ps_startedAt st).

Definition withDuration (d : Z) (st : PipelineState) : PipelineState :=
  mkPipelineState (ps_status st) (ps_meetingTitle st) (ps_meetingUrl st) (ps_platform st)
    (ps_botId st) (ps_botSessionId st) (ps_captureActive st) (ps_participantCount st)
    (ps_segmentCount st) d (ps_error st) (ps_reviewId st) (ps_startedAt st).

Definition withError (e : option string) (st : PipelineState) : PipelineState :=
  mkPipelineState (ps_status st) (ps_meetingTitle st) (ps_meetingUrl st) (ps_platform st)
    (ps_botId st) (ps_botSessionId st) (ps_captureActive st) (ps_participantCount st)
    (ps_segmentCount st) (ps_duration st) e (ps_reviewId st) (ps_startedAt st).

Definition withReviewId (r : option string) (st : PipelineState) : PipelineState :=
  mkPipelineState (ps_status st) (ps_meetingTitle st) (ps_meetingUrl st) (ps_platform st)
    (ps_botId st) (ps_botSessionId st) (ps_captureActive st) (ps_participantCount st)
    (ps_segmentCount st) (ps_duration st) (ps_error st) r (ps_startedAt st).

Definition onState (f : PipelineState -> PipelineState) (m : Machine) : Machine :=
  mkMachine (f (state m)) (diarization m) (durationTimer m) (captureCleanup m) (config m)
    (audioFilePath m) (clock m) (liveIntervals m) (nextHandle m) (emitted m) (console m)
    (calls m).

Definition setDiarization (d : SpeakerDiarizationServiceImpl) (m : Machine) : Machine :=
  mkMachine (state m) d (durationTimer m) (captureCleanup m) (config m)
    (audioFilePath m) (clock m) (liveIntervals m) (nextHandle m) (emitted m) (console m)
    (calls m).

Definition setTimer (t : option nat) (live : list nat) (next : nat) (m : Machine) : Machine :=
  mkMachine (state m) (diarization m) t (captureCleanup m) (config m)
    (audioFilePath m) (clock m) live next (emitted m) (console m) (calls m).

Definition setCaptureCleanup (c : bool) (m : Machine) : Machine :=
  mkMachine (state m) (diarization m) (durationTimer m) c (config m)
    (audioFilePath m) (clock m) (liveIntervals m) (nextHandle m) (emitted m) (console m)
    (calls m).

Definition setConfig (c : option PipelineConfig) (m : Machine) : Machine :=
  mkMachine (state m) (diarization m) (durationTimer m) (captureCleanup m) c
    (audioFilePath m) (clock m) (liveIntervals m) (nextHandle m) (emitted m) (console m)
    (calls m).

Definition setAudioFilePath (p : option string) (m : Machine) : Machine :=
  mkMachine (state m) (diarization m) (durationTimer m) (captureCleanup m) (config m)
    p (clock m) (liveIntervals m) (nextHandle m) (emitted m) (console m) (calls m).

Definition setClock (t : Z) (m : Machine) : Machine :=
  mkMachine (state m) (diarization m) (durationTimer m) (captureCleanup m) (config m)
    (audioFilePath m) t (liveIntervals m) (nextHandle m) (emitted m) (console m) (calls m).

Definition pushEvent (e : PipelineEvent) (m : Machine) : Machine :=
  mkMachine (state m) (diarization m) (durationTimer m) (captureCleanup m) (config m)
    (audioFilePath m) (clock m) (liveIntervals m) (nextHandle m) (emitted m ++ [e])%list
    (console m) (calls m).

Definition pushConsole (line : string) (m : Machine) : Machine :=
  mkMachine (state m) (diarization m) (durationTimer m) (captureCleanup m) (config m)
    (audioFilePath m) (clock m) (liveIntervals m) (nextHandle m) (emitted m)
    (console m ++ [line])%list (calls m).

Definition pushCall (c : Call) (m : Machine) : Machine :=
  mkMachine (state m) (diarization m) (durationTimer m) (captureCleanup m) (config m)
    (audioFilePath m) (clock m) (liveIntervals m) (nextHandle m) (emitted m) (console m)
    (calls m ++ [c])%list.

(** *** The monad of orchestrator methods: state and exceptions *)

Definition M (A : Type) : Type := Machine -> Outcome A * Machine.

Definition ret {A} (a : A) : M A := fun m => (Return a, m).

Definition throw {A} (message : string) : M A := fun m => (Throw message, m).

Definition bind {A B} (c : M A) (k : A -> M B) : M B :=
  fun m =>
    match c m with
    | (Return a, m') => k a m'
    | (Throw e, m') => (Throw e, m')
    end.

(** [try { body } catch (err) { handler(err.message) }]: what [body] did
    to the machine before it threw stays done. *)
Definition tryCatch {A} (body : M A) (handler : string -> M A) : M A :=
  fun m =>
    match body m with
    | (Return a, m') => (Return a, m')
    | (Throw e, m') => handler e m'
    end.

Definition gets {A} (f : Machine -> A) : M A := fun m => (Return (f m), m).

Definition modify (f : Machine -> Machine) : M unit := fun m => (Return tt, f m).

(** [await call]: the answer of a collaborator, after the call is logged. *)
Definition await {A} (c : Call) (answer : Outcome A) : M A :=
  fun m => (answer, pushCall c m).

(** [await] of a promise of the host ([window.electron]). *)
Definition awaitHost {A} (answer : Outcome A) : M A := fun m => (answer, m).

Declare Scope pipeline_scope.
Delimit Scope pipeline_scope with pipeline.
Notation "x <- c ;; k" := (bind c (fun x => k))
  (at level 61, c at next level, right associativity) : pipeline_scope.
Notation "c ;; k" := (bind c (fun _ => k))
  (at level 61, right associativity) : pipeline_scope.
Local Open Scope pipeline_scope.

(** *** Helpers of the class *)

Definition isActive (m : Machine) : bool :=
  match ps_status (state m) with
  | PipelineStatus.idle | PipelineStatus.complete | PipelineStatus.error => false
  | _ => true
  end.

Definition getState (m : Machine) : PipelineState := state m.

(** [emit(type, data)]: the event gets the current time; a handler that
    throws is caught inside [emit], so emitting never fails. *)
Definition emit (type : PipelineEventType.t) (data : EventData) : M unit :=
  modify (fun m => pushEvent {| ev_type := type; ev_data := data; ev_timestamp := clock m |} m).

(** [emit('status_changed', this.state)] *)
Definition emitStatusChanged : M unit :=
  st <- gets state ;; emit PipelineEventType.status_changed (StateData st).

Definition setStatus (s : PipelineStatus.t) : M unit := modify (onState (withStatus s)).

Definition warn (line : string) : M unit := modify (pushConsole line).

Definition startDurationTimer : M unit :=
  modify (fun m =>
    setTimer (Some (nextHandle m)) (nextHandle m :: liveIntervals m) (S (nextHandle m)) m).

Definition stopDurationTimer : M unit :=
  modify (fun m =>
    match durationTimer m with
    | Some h => setTimer None (filter (fun h' => negb (h' =? h)%nat) (liveIntervals m))
                  (nextHandle m) m
    | None => m
    end).

(** The callback of the duration ticker, run by the host once a second
    while the interval is live. *)
Definition durationTick (m : Machine) : Machine :=
  match ps_startedAt (state m) with
  | Some startedAt =>
      if (startedAt =? 0)%Z then m
      else onState (withDuration ((clock m - startedAt) / 1000)%Z) m
  | None => m
  end.

Definition resetState : M unit :=
  modify (fun m => setAudioFilePath None (setConfig None m)).

(** [deployBot].  [this.recallBot.configure(apiKey)] sets a field of the
    bot client and is part of how [createBot] answers. *)
Definition deployBot (env : Env) (config : PipelineConfig) : M unit :=
  tryCatch
    (botId <- await (CallCreateBot (cfg_meetingUrl config))
                (env_createBot env (cfg_meetingUrl config)) ;;
     modify (onState (withBotId (Some botId))))
    (fun message => throw ("Failed to deploy bot: " ++ message)).

Definition startCapture (env : Env) (sourceId : string) : M unit :=
  match env_electron env with
  | None => warn "Electron not available for capture"
  | Some electron =>
      tryCatch
        (awaitHost (el_startCapture electron) ;;
         modify (setCaptureCleanup true) ;;
         modify (onState (withCaptureActive true)) ;;
         emitStatusChanged)
        (fun message => warn ("Failed to start capture: " ++ message))
  end.

Definition stopCapture (env : Env) : M unit :=
  modify (setCaptureCleanup false) ;;
  match env_electron env with
  | Some electron =>
      match el_stopCapture electron with
      | Some answer =>
          tryCatch (awaitHost answer)
            (fun message => warn ("Stop capture error: " ++ message))
      | None => ret tt
      end
  | None => ret tt
  end ;;
  modify (onState (withCaptureActive false)).

(** *** Bot-status polling *)

(** [status?.status === 'done' || status?.status === 'error'] *)
Definition endsPolling (status : option RecallBotStatus.t) : bool :=
  match status with
  | Some RecallBotStatus.done | Some RecallBotStatus.error => true
  | _ => false
  end.

(** [await this.recallBot.getBotStatus(botId)], the [i]-th poll. *)
Definition getBotStatus (env : Env) (botId : string) (i : nat)
    : M (option RecallBotStatus.t) :=
  modify (fun m => setClock (clock m + Z.of_nat (env_pollLatency env i))%Z m) ;;
  await (CallGetBotStatus botId i) (env_getBotStatus env botId i).

(** [await new Promise((resolve) => setTimeout(resolve, ms))] *)
Definition sleep (ms : Z) : M unit := modify (fun m => setClock (clock m + ms)%Z m).

(** How the polling loop was left.  [OutOfFuel] belongs to the embedding
    only: the loop below recurses on a bound on its iterations. *)
Inductive PollExit : Set := SawTerminal | TimedOut | OutOfFuel.

(** [while (Date.now() - startTime < maxWaitMs) { ... }] *)
Fixpoint pollLoop (env : Env) (botId : string) (startTime maxWaitMs : Z)
    (fuel : nat) (i : nat) {struct fuel} : M PollExit :=
  now <- gets clock ;;
  if (now - startTime <? maxWaitMs)%Z then
    match fuel with
    | O => ret OutOfFuel
    | S fuel' =>
        finished <- tryCatch
                      (status <- getBotStatus env botId i ;; ret (endsPolling status))
                      (fun _ => ret false) ;;
        if finished then ret SawTerminal
        else sleep 3000 ;; pollLoop env botId startTime maxWaitMs fuel' (S i)
    end
  else warn "Bot processing timed out" ;; ret TimedOut.

(** Every iteration sleeps 3000 ms, so [maxWaitMs / 3000 + 1] iterations
    are never exceeded. *)
Definition pollFuel (maxWaitMs : Z) : nat := S (Z.to_nat (maxWaitMs / 3000)).

Definition waitForBotProcessingFor (env : Env) (botId : string) (maxWaitMs : Z)
    : M PollExit :=
  startTime <- gets clock ;;
  pollLoop env botId startTime maxWaitMs (pollFuel maxWaitMs) 0.

(** [waitForBotProcessing(botId, maxWaitMs = 120000)] *)
Definition waitForBotProcessing (env : Env) (botId : string) : M PollExit :=
  waitForBotProcessingFor env botId 120000.

(** *** The public API *)

(** [start].  [this.faceDetection.reset()] acts on the injected face
    detection only and is left out. *)
Definition start (env : Env) (config : PipelineConfig) : M unit :=
  active <- gets isActive ;;
  if active then throw "A pipeline is already active. Stop it first."
  else
    modify (setConfig (Some config)) ;;
    now <- gets clock ;;
    modify (onState (fun _ =>
      {| ps_status := PipelineStatus.bot_joining;
         ps_meetingTitle := cfg_meetingTitle config;
         ps_meetingUrl := Some (cfg_meetingUrl config);
         ps_platform := platformName (cfg_platform config);
         ps_botId := None; ps_botSessionId := None;
         ps_captureActive := false; ps_participantCount := 0; ps_segmentCount := 0;
         ps_duration := 0; ps_error := None; ps_reviewId := None;
         ps_startedAt := Some now |})) ;;
    emitStatusChanged ;;
    modify (fun m => setDiarization (Diarization.reset (diarization m)) m) ;;
    tryCatch
      (deployBot env config ;;
       startDurationTimer ;;
       (if Js.truthy (cfg_captureSourceId config)
        then startCapture env (Js.strOr (cfg_captureSourceId config) "")
        else ret tt) ;;
       setStatus PipelineStatus.capturing ;;
       emitStatusChanged)
      (fun message =>
         setStatus PipelineStatus.error ;;
         modify (onState (withError (Some message))) ;;
         emit PipelineEventType.error (ErrorData message) ;;
         emitStatusChanged ;;
         throw message).

Definition fromRecall (seg : RecallTranscriptSegment) : RawTranscriptSegment :=
  {| rts_text := rt_text seg;
     rts_startTime := rt_startTime seg;
     rts_endTime := rt_endTime seg;
     rts_speakerLabel := Some ("Speaker " ++ Js.showNat (rt_speakerId seg));
     rts_confidence := rt_confidence seg |}.

Definition fromWhisper (seg : TranscriptSegment) : RawTranscriptSegment :=
  {| rts_text := ts_text seg;
     rts_startTime := ts_startTime seg;
     rts_endTime := ts_endTime seg;
     rts_speakerLabel := Js.strOrUndefined (Some (ts_speakerName seg));
     rts_confidence := Some (ts_confidence seg) |}.

(** The block [if (this.state.botId) { try { ... } catch { ... } }] of
    [stop]: the value is what [transcriptSegments] holds after it. *)
Definition collectFromBot (env : Env) : M (list RawTranscriptSegment) :=
  botId <- gets (fun m => ps_botId (state m)) ;;
  if Js.truthy botId then
    let id := Js.strOr botId "" in
    tryCatch
      (await (CallStopBot id) (env_stopBot env id) ;;
       waitForBotProcessing env id ;;
       recording <- await (CallGetRecording id) (env_getRecording env id) ;;
       match recording with
       | Some r =>
           if Js.truthy (rec_audioUrl r)
           then modify (setAudioFilePath (rec_audioUrl r))
           else ret tt
       | None => ret tt
       end ;;
       recallTranscript <- await (CallGetTranscript id) (env_getTranscript env id) ;;
       match recallTranscript with
       | Some t => ret (map fromRecall (rtr_segments t))
       | None => ret []
       end)
      (fun message =>
         warn ("Bot processing failed, will try local transcription: " ++ message) ;;
         ret [])
  else ret [].

(** The block [if (this.audioFilePath) { try { ... } catch { ... } }] of
    [stop], given the current [transcriptSegments]. *)
Definition transcribeLocally (env : Env) (transcriptSegments : list RawTranscriptSegment)
    : M (list RawTranscriptSegment) :=
  audio <- gets audioFilePath ;;
  if Js.truthy audio then
    let path := Js.strOr audio "" in
    tryCatch
      (whisperResult <- await (CallTranscribeFile path) (env_transcribeFile env path) ;;
       match tr_segments whisperResult with
       | _ :: _ => ret (map fromWhisper (tr_segments whisperResult))
       | [] => ret transcriptSegments
       end)
      (fun message =>
         warn ("Local transcription failed: " ++ message) ;;
         ret transcriptSegments)
  else ret transcriptSegments.

Definition expressionDataOf (faceParticipants : list DetectedParticipant)
    : list (string * Q * string * Q) :=
  flat_map
    (fun fp =>
       map (fun entry : Q * string * Q =>
              let '(timestamp, expression, confidence) := entry in
              (Js.strOr (det_name fp) (det_id fp), timestamp, expression, confidence))
         (det_expressionHistory fp))
    faceParticipants.

(** [storeMeetingInMoltbook]: all of its work sits in a [try] whose
    [catch] only logs, so the orchestrator sees no effect and no failure;
    the upload itself is outside the embedding. *)
Definition storeMeetingInMoltbook (review : MeetingReview) (input : AnalysisInput)
    : M unit :=
  ret tt.

(** The rest of the [try] block of [stop], from the check of
    [transcriptSegments.length] on: diarization, the analysis input, the
    review and the transition to [complete]. *)
Definition analyzeAndReview (env : Env) (transcriptSegments : list RawTranscriptSegment)
    : M (option MeetingReview) :=
  match transcriptSegments with
  | [] => warn "No transcript data available"
  | _ :: _ => ret tt
  end ;;
  setStatus PipelineStatus.analyzing ;;
  emitStatusChanged ;;
  service <- gets diarization ;;
  cfg <- gets config ;;
  let visualObservations := getVisualObservations service in
  let participantNames :=
    match cfg with
    | Some c => match cfg_participantNames c with Some l => l | None => [] end
    | None => []
    end in
  let diarized := diarize service transcriptSegments visualObservations participantNames in
  let diarizationResult := fst diarized in
  modify (pushCall (CallDiarize transcriptSegments)) ;;
  modify (setDiarization (snd diarized)) ;;
  st <- gets state ;;
  now <- gets clock ;;
  let analysisInput :=
    {| ai_meetingTitle := ps_meetingTitle st;
       ai_meetingDate :=
         match ps_startedAt st with
         | Some t => if (t =? 0)%Z then now else t
         | None => now
         end;
       ai_duration := ps_duration st;
       ai_platform := ps_platform st;
       ai_participants :=
         map (fun p => (dp_id p, dp_name p)) (dr_participants diarizationResult);
       ai_transcriptSegments :=
         map (fun seg => (ds_speakerName seg, ds_text seg,
                          ds_startTime seg, ds_endTime seg))
           (dr_segments diarizationResult);
       ai_expressionData := expressionDataOf (env_faceParticipants env) |} in
  setStatus PipelineStatus.generating_review ;;
  emitStatusChanged ;;
  review <- await (CallGenerateReview analysisInput)
              (env_generateReview env analysisInput) ;;
  storeMeetingInMoltbook review analysisInput ;;
  setStatus PipelineStatus.complete ;;
  modify (onState (withReviewId (Some (mr_id review)))) ;;
  emitStatusChanged ;;
  emit PipelineEventType.review_ready (ReviewReadyData (mr_id review) review) ;;
  resetState ;;
  ret (Some review).

(** The [catch] block of [stop]. *)
Definition stopFailed (message : string) : M (option MeetingReview) :=
  setStatus PipelineStatus.error ;;
  modify (onState (withError (Some message))) ;;
  emit PipelineEventType.error (ErrorData message) ;;
  emitStatusChanged ;;
  resetState ;;
  ret None.

Definition stop (env : Env) : M (option MeetingReview) :=
  active <- gets isActive ;;
  if negb active then ret None
  else
    tryCatch
      (stopCapture env ;;
       stopDurationTimer ;;
       setStatus PipelineStatus.bot_processing ;;
       emitStatusChanged ;;
       fromBot <- collectFromBot env ;;
       setStatus PipelineStatus.transcribing ;;
       emitStatusChanged ;;
       transcriptSegments <- transcribeLocally env fromBot ;;
       analyzeAndReview env transcriptSegments)
      stopFailed.

End Pipeline.

(** ** The properties, in the words of the specification *)

Module Spec.

Import Diarization.

(** A visual observation lies in the time window of a segment, is
    flagged speaking and has a speaking confidence above 0.3. *)
Definition qualifies (seg : RawTranscriptSegment) (v : VisualObservation) : Prop :=
  rts_startTime seg <= vo_timestamp v /\ vo_timestamp v <= rts_endTime seg
  /\ vo_isSpeaking v = true /\ 3 # 10 < vo_speakingConfidence v.





(** What a diarized segment keeps of its transcript segment. *)
Definition spanOfInput (seg : RawTranscriptSegment) : string * Q * Q :=
  (rts_text seg, rts_startTime seg, rts_endTime seg).

Definition spanOfOutput (seg : DiarizedSegment) : string * Q * Q :=
  (ds_text seg, ds_startTime seg, ds_endTime seg).

Definition startsAt (t : Q) (span : string * Q * Q) : bool :=
  Qeq_bool (snd (fst span)) t.

(** Time order of diarized segments. *)
Definition inTimeOrder (segments : list DiarizedSegment) : Prop :=
  Sorted (fun a b => ds_startTime a <= ds_startTime b) segments.



(** The transcripts handed to [diarize], and the audio files handed to
    local transcription, in the calls an orchestrator has made. *)
Definition handedToDiarization (calls : list Pipeline.Call)
    : list (list RawTranscriptSegment) :=
  flat_map (fun c => match c with Pipeline.CallDiarize segs => [segs] | _ => [] end) calls.

Definition locallyTranscribed (calls : list Pipeline.Call) : list string :=
  flat_map (fun c => match c with Pipeline.CallTranscribeFile path => [path] | _ => [] end)
    calls.

Definition statusPolls (calls : list Pipeline.Call) : nat :=
  List.length
    (filter (fun c => match c with Pipeline.CallGetBotStatus _ _ => true | _ => false end)
       calls).

Definition errorEvents (events : list Pipeline.PipelineEvent) : list Pipeline.PipelineEvent :=
  filter (fun e => match Pipeline.ev_type e with PipelineEventType.error => true | _ => false end)
    events.


End Spec.

(** ** Auxiliary notions of the proofs *)

Module Invariants.

Import Diarization.





(** The part of [stop] that deals with the bot: from [stopCapture] to the
    end of the block that fetches the bot's recording and transcript. *)
Definition botPhase (env : Pipeline.Env) : Pipeline.M (list RawTranscriptSegment) :=
  Pipeline.bind (Pipeline.stopCapture env) (fun _ =>
  Pipeline.bind Pipeline.stopDurationTimer (fun _ =>
  Pipeline.bind (Pipeline.setStatus PipelineStatus.bot_processing) (fun _ =>
  Pipeline.bind Pipeline.emitStatusChanged (fun _ =>
  Pipeline.collectFromBot env)))).

(** The transcript [stop] goes on with after its local-transcription block,
    given the transcript [fromBot] of the bot and the audio file path. *)
Definition chosenTranscript (env : Pipeline.Env) (fromBot : list RawTranscriptSegment)
    (audioFilePath : option string) : list RawTranscriptSegment :=
  if Js.truthy audioFilePath then
    match Pipeline.env_transcribeFile env (Js.strOr audioFilePath "") with
    | Pipeline.Return whisperResult =>
        match Pipeline.tr_segments whisperResult with
        | [] => fromBot
        | _ :: _ => map Pipeline.fromWhisper (Pipeline.tr_segments whisperResult)
        end
    | Pipeline.Throw _ => fromBot
    end
  else fromBot.

(** Where the audio file path comes from: the bot block of [stop] leaves
    it alone or sets it to the [audioUrl] of the bot's recording. *)
Definition audioFromRecording (env : Pipeline.Env) (botId : option string)
    (before after : option string) : Prop :=
  after = before
  \/ exists recording,
       Pipeline.env_getRecording env (Js.strOr botId "") = Pipeline.Return (Some recording)
       /\ Js.truthy (Pipeline.rec_audioUrl recording) = true
       /\ after = Pipeline.rec_audioUrl recording.

End Invariants.

(** ** Concrete inputs used below *)

Module Scenarios.

Import Diarization Pipeline.

Definition emptyService : SpeakerDiarizationServiceImpl := {| observations := [] |}.

Definition speaking (pid : string) (t : Q) : VisualObservation :=
  {| vo_timestamp := t; vo_participantId := pid; vo_participantName := None;
     vo_isSpeaking := true; vo_speakingConfidence := 9 # 10; vo_expression := neutral;
     vo_expressionConfidence := 1 # 2; vo_headPose := None |}.

Definition segment (text : string) (startTime endTime : Q) : RawTranscriptSegment :=
  {| rts_text := text; rts_startTime := startTime; rts_endTime := endTime;
     rts_speakerLabel := None; rts_confidence := None |}.


(** Four speakers talking for 1, 1, 1 and 5 seconds: 12.5 %% three times
    and 62.5 %%. *)
Definition fourSpeakers : list RawTranscriptSegment :=
  [segment "a" 0 1; segment "b" 2 3; segment "c" 4 5; segment "d" 6 11].




(** A run in which every collaborator answers at once and plainly: the
    bot deploys as [bot-1] and reports [done], there is no [electron], no
    recording, no transcript, and the review generator answers. *)
Definition plainEnv : Env :=
  {| env_createBot := fun _ => Return "bot-1";
     env_electron := None;
     env_stopBot := fun _ => Return tt;
     env_getBotStatus := fun _ _ => Return (Some RecallBotStatus.done);
     env_pollLatency := fun _ => 0%nat;
     env_getRecording := fun _ => Return None;
     env_getTranscript := fun _ => Return None;
     env_transcribeFile := fun _ => Return {| tr_segments := []; tr_fullText := "" |};
     env_generateReview :=
       fun input => Return {| mr_id := "review-1"; mr_title := ai_meetingTitle input;
                              mr_summary := "" |};
     env_faceParticipants := [] |}.



Definition withBotStatus (f : string -> nat -> Outcome (option RecallBotStatus.t))
    (env : Env) : Env :=
  mkEnv (env_createBot env) (env_electron env) (env_stopBot env) f (env_pollLatency env)
    (env_getRecording env) (env_getTranscript env) (env_transcribeFile env)
    (env_generateReview env) (env_faceParticipants env).

Definition withRecordings (recording : option RecallRecording)
    (transcript : option RecallTranscript) (local : Outcome TranscriptionResult)
    (env : Env) : Env :=
  mkEnv (env_createBot env) (env_electron env) (env_stopBot env) (env_getBotStatus env)
    (env_pollLatency env) (fun _ => Return recording) (fun _ => Return transcript)
    (fun _ => local) (env_generateReview env) (env_faceParticipants env).

Definition meeting : PipelineConfig :=
  {| cfg_meetingUrl := "https://meet.example/abc"; cfg_meetingTitle := "Weekly";
     cfg_platform := meet; cfg_captureSourceId := None; cfg_participantNames := None;
     cfg_recallApiKey := None |}.




(** The bot reports [fatal] at every poll. *)
Definition fatalBotEnv : Env :=
  withBotStatus (fun _ _ => Return (Some RecallBotStatus.fatal)) plainEnv.

(** The bot never leaves [processing]. *)
Definition slowBotEnv : Env :=
  withBotStatus (fun _ _ => Return (Some RecallBotStatus.processing)) plainEnv.

Definition botSegment : RecallTranscriptSegment :=
  {| rt_speakerId := 1; rt_speakerName := "Bob"; rt_text := "from the bot";
     rt_startTime := 0; rt_endTime := 2; rt_confidence := Some (9 # 10) |}.

Definition localSegment : TranscriptSegment :=
  {| ts_id := "seg-0"; ts_speakerName := "Speaker"; ts_text := "from whisper";
     ts_startTime := 0; ts_endTime := 2; ts_confidence := 85 # 100 |}.

(** The bot returns a recording with an audio URL and a transcript of one
    segment; local transcription of the audio returns one segment too. *)
Definition bothTranscriptsEnv : Env :=
  withRecordings
    (Some {| rec_id := "rec-1"; rec_audioUrl := Some "https://recall.example/a.wav" |})
    (Some {| rtr_id := "tr-1"; rtr_segments := [botSegment] |})
    (Return {| tr_segments := [localSegment]; tr_fullText := "from whisper" |})
    plainEnv.

(** An orchestrator with a session in the [capturing] state. *)
Definition capturingMachine : Machine := snd (start plainEnv meeting (newMachine 1000)).

End Scenarios.

(** ** Further notions used to state properties of the engine *)

Module EngineSpec.

Import Diarization.

(** [d] is the most frequent expression of [exprs]; an expression that
    is first met before [d] is strictly less frequent. *)
Definition mostFrequent (exprs : list Expression) (d : Expression) : Prop :=
  exists before after,
    exprs = (before ++ d :: after)%list
    /\ ~ In d before
    /\ (forall e, In e before ->
          (count_occ Expression_eq_dec exprs e < count_occ Expression_eq_dec exprs d)%nat)
    /\ (forall e, In e after ->
          (count_occ Expression_eq_dec exprs e <= count_occ Expression_eq_dec exprs d)%nat).

(** [Math.abs(yaw) > 30 || Math.abs(pitch) > 20] on an observation that
    carries a head pose. *)
Definition lookingAway (v : VisualObservation) : bool :=
  match vo_headPose v with
  | Some hp => Js.gtb (Qabs (yaw hp)) 30 || Js.gtb (Qabs (pitch hp)) 20
  | None => false
  end.

(** The first observation of participant [p] that carries a name carries
    the name [n]. *)
Definition firstNamed (observations : list VisualObservation) (p n : string) : Prop :=
  exists before o after,
    observations = (before ++ o :: after)%list
    /\ vo_participantId o = p
    /\ vo_participantName o = Some n
    /\ n <> ""
    /\ forall o', In o' before -> vo_participantId o' = p ->
                  Js.truthy (vo_participantName o') = false.

(** What a segment gets when no observation overlaps it. *)
Definition neutralDefaults (d : DiarizedSegment) : Prop :=
  ds_dominantExpression d = neutral
  /\ ds_expressionConfidence d = 1 # 2
  /\ ds_expressions d = [(neutral, 100%Z)]
  /\ ds_engagement d = medium.

Definition segmentCountSum (participants : list DiarizedParticipant) : nat :=
  fold_right (fun p s => (dp_segmentCount p + s)%nat) 0%nat participants.

Definition wordCountSum (participants : list DiarizedParticipant) : nat :=
  fold_right (fun p s => (dp_wordCount p + s)%nat) 0%nat participants.

Definition wordsOf (segments : list DiarizedSegment) : nat :=
  fold_right (fun seg s => (Js.countWords (ds_text seg) + s)%nat) 0%nat segments.

(** The speaker identifiers of a list of segments, each once, in the order
    of their first segment. *)
Fixpoint speakersOf (seen : list string) (segments : list DiarizedSegment) : list string :=
  match segments with
  | [] => seen
  | seg :: rest =>
      speakersOf (if existsb (String.eqb (ds_speakerId seg)) seen then seen
                  else (seen ++ [ds_speakerId seg])%list) rest
  end.

(** Participant [p] was seen speaking, with a confidence above 0.3, during
    a transcript segment that bears the label [label]. *)
Definition seenSpeakingUnder (transcript : list RawTranscriptSegment)
    (visual : list VisualObservation) (label p : string) : Prop :=
  exists seg v,
    In seg transcript /\ rts_speakerLabel seg = Some label
    /\ In v visual /\ Spec.qualifies seg v /\ vo_participantId v = p.

End EngineSpec.

(** * Properties *)

Import Invariants.

(** ** Facts about the JavaScript helpers *)

Section SortByFacts.
Context {A : Type} (key : A -> Q).

Let byKey (a b : A) : Prop := key a <= key b.

Lemma insertBy_perm (x : A) (l : list A) :
  Permutation (Js.insertBy key x l) (x :: l).
Proof.
  induction l as [| y rest IH]; simpl.
  - apply Permutation_refl.
  - destruct (Qle_bool (key x) (key y)).
    + apply Permutation_refl.
    + apply perm_trans with (y :: x :: rest).
      * now apply perm_skip.
      * apply perm_swap.
Qed.

Lemma sortBy_perm (l : list A) : Permutation (Js.sortBy key l) l.
Proof.
  induction l as [| x rest IH]; simpl.
  - apply perm_nil.
  - apply perm_trans with (x :: Js.sortBy key rest).
    + apply insertBy_perm.
    + now apply perm_skip.
Qed.

Lemma sortBy_length (l : list A) : List.length (Js.sortBy key l) = List.length l.
Proof. apply Permutation_length, sortBy_perm. Qed.


Lemma insertBy_hd (x : A) (l : list A) (a : A) :
  byKey a x -> HdRel byKey a l -> HdRel byKey a (Js.insertBy key x l).
Proof.
  intros Hax Hhd. destruct l as [| y rest]; simpl.
  - now constructor.
  - destruct (Qle_bool (key x) (key y)).
    + now constructor.
    + constructor. now inversion Hhd.
Qed.

Lemma insertBy_sorted (x : A) (l : list A) :
  Sorted byKey l -> Sorted byKey (Js.insertBy key x l).
Proof.
  induction l as [| y rest IH]; intros Hs; simpl.
  - repeat constructor.
  - destruct (Qle_bool (key x) (key y)) eqn:Hxy.
    + constructor; [assumption |]. constructor. now apply Qle_bool_iff.
    + inversion Hs as [| ? ? Hrest Hhd]; subst.
      constructor.
      * now apply IH.
      * apply insertBy_hd; [| assumption].
        unfold byKey. apply Qlt_le_weak, Qnot_le_lt.
        intros Hle. apply Qle_bool_iff in Hle. congruence.
Qed.

Lemma sortBy_sorted (l : list A) : Sorted byKey (Js.sortBy key l).
Proof.
  induction l as [| x rest IH]; simpl.
  - constructor.
  - now apply insertBy_sorted.
Qed.

(** The sort is stable: the elements with a given key keep the order
    they had in the input. *)
Lemma insertBy_filter_key (t : Q) (x : A) (l : list A) :
  filter (fun a => Qeq_bool (key a) t) (Js.insertBy key x l)
  = filter (fun a => Qeq_bool (key a) t) (x :: l).
Proof.
  induction l as [| y rest IH]; simpl; [reflexivity |].
  destruct (Qle_bool (key x) (key y)) eqn:Hxy; [reflexivity |].
  simpl in *. rewrite IH.
  destruct (Qeq_bool (key x) t) eqn:Hx; [| reflexivity].
  destruct (Qeq_bool (key y) t) eqn:Hy; [| reflexivity].
  exfalso. apply Qeq_bool_iff in Hx, Hy.
  assert (Hle : key x <= key y) by (rewrite Hx, Hy; apply Qle_refl).
  apply Qle_bool_iff in Hle. congruence.
Qed.

Lemma sortBy_stable (t : Q) (l : list A) :
  filter (fun a => Qeq_bool (key a) t) (Js.sortBy key l)
  = filter (fun a => Qeq_bool (key a) t) l.
Proof.
  induction l as [| x rest IH]; simpl; [reflexivity |].
  rewrite insertBy_filter_key. simpl. now rewrite IH.
Qed.

(** An input that is already in order is left as it is. *)
Lemma sortBy_sorted_id (l : list A) : Sorted byKey l -> Js.sortBy key l = l.
Proof.
  induction l as [| x rest IH]; intros Hs; simpl; [reflexivity |].
  inversion Hs as [| ? ? Hrest Hhd]; subst.
  rewrite (IH Hrest).
  destruct Hhd as [| y rest' Hxy]; simpl; [reflexivity |].
  apply Qle_bool_iff in Hxy. now rewrite Hxy.
Qed.

End SortByFacts.

(** ** The diarization engine *)

Section DiarizeFacts.
Import Diarization.

Variable this : SpeakerDiarizationServiceImpl.
Variable transcriptSegments : list RawTranscriptSegment.
Variable visualObservations : list VisualObservation.
Variable participantNames : list string.

Let result : DiarizationResult :=
  fst (diarize this transcriptSegments visualObservations participantNames).

(** The output segments are the images of the time-sorted transcript
    segments under the loop body. *)
Lemma diarize_segments :
  dr_segments result
  = map (diarizeSegment
           (sortedVisualOf this visualObservations)
           (buildSpeakerNameMap (sortedVisualOf this visualObservations) participantNames)
           (mapSpeakerLabelsToParticipants (sortedTranscriptOf transcriptSegments)
              (sortedVisualOf this visualObservations)))
      (sortedTranscriptOf transcriptSegments).
Proof. reflexivity. Qed.

Lemma diarizeSegment_span sv names labels seg :
  Spec.spanOfOutput (diarizeSegment sv names labels seg) = Spec.spanOfInput seg.
Proof.
  unfold diarizeSegment.
  destruct (attributeSpeaker names labels seg (filter (inWindow seg) sv)) as [[? ?] ?].
  reflexivity.
Qed.

Lemma diarize_spans :
  map Spec.spanOfOutput (dr_segments result)
  = map Spec.spanOfInput (sortedTranscriptOf transcriptSegments).
Proof.
  rewrite diarize_segments, map_map.
  apply map_ext. intros seg. apply diarizeSegment_span.
Qed.

Lemma diarizeSegment_startTime sv names labels seg :
  ds_startTime (diarizeSegment sv names labels seg) = rts_startTime seg.
Proof.
  generalize (diarizeSegment_span sv names labels seg).
  unfold Spec.spanOfOutput, Spec.spanOfInput. congruence.
Qed.

Lemma diarizeSegment_in_time_order sv names labels (l : list RawTranscriptSegment) :
  Sorted (fun a b => rts_startTime a <= rts_startTime b) l ->
  Spec.inTimeOrder (map (diarizeSegment sv names labels) l).
Proof.
  unfold Spec.inTimeOrder.
  induction 1 as [| seg rest Hrest IH Hhd]; simpl; constructor.
  - exact IH.
  - destruct Hhd as [| seg' rest' Hle]; simpl; constructor.
    now rewrite !diarizeSegment_startTime.
Qed.

Lemma filter_map_comm {A B : Type} (f : A -> B) (p : B -> bool) (l : list A) :
  filter p (map f l) = map f (filter (fun a => p (f a)) l).
Proof.
  induction l as [| a rest IH]; simpl; [reflexivity |].
  destruct (p (f a)); simpl; now rewrite IH.
Qed.

(** C2.  [diarize] returns exactly one diarized segment per transcript
    segment: the output is as long as the input and carries the text and
    the time window of each input segment once.  The output is in time
    order (start times never decrease), and segments that start at the
    same time keep the order they had in the input. *)
Theorem diarize_one_segment_per_input_in_time_order :
  List.length (dr_segments result) = List.length transcriptSegments
  /\ Permutation (map Spec.spanOfOutput (dr_segments result))
       (map Spec.spanOfInput transcriptSegments)
  /\ Spec.inTimeOrder (dr_segments result)
  /\ forall t,
       filter (Spec.startsAt t) (map Spec.spanOfOutput (dr_segments result))
       = filter (Spec.startsAt t) (map Spec.spanOfInput transcriptSegments).
Proof.
  split; [| split; [| split]].
  - rewrite diarize_segments, length_map. apply sortBy_length.
  - rewrite diarize_spans. apply Permutation_map, sortBy_perm.
  - rewrite diarize_segments. apply diarizeSegment_in_time_order.
    apply (sortBy_sorted rts_startTime).
  - intros t. rewrite diarize_spans, !filter_map_comm.
    unfold sortedTranscriptOf. f_equal.
    apply (sortBy_stable rts_startTime t).
Qed.

(** C10.  Every diarized segment has [isSpeaking = true] and
    [audioSource = 'whisper'], whatever the transcript segments and the
    visual observations are. *)
Theorem diarize_segments_constant_fields :
  Forall (fun d => ds_isSpeaking d = true /\ ds_audioSource d = whisper)
    (dr_segments result).
Proof.
  rewrite diarize_segments. apply Forall_map, Forall_forall.
  intros seg _. unfold diarizeSegment.
  destruct (attributeSpeaker _ _ seg _) as [[? ?] ?]. now split.
Qed.


End DiarizeFacts.

(** The observations the engine works on: the buffered ones followed by
    the ones passed in, stably sorted by timestamp. *)
Lemma sortedVisualOf_spec (this : Diarization.SpeakerDiarizationServiceImpl)
    (visualObservations : list VisualObservation) :
  let sorted := Diarization.sortedVisualOf this visualObservations in
  let given := (Diarization.observations this ++ visualObservations)%list in
  Permutation sorted given
  /\ Sorted (fun a b => vo_timestamp a <= vo_timestamp b) sorted
  /\ forall t,
       filter (fun v => Qeq_bool (vo_timestamp v) t) sorted
       = filter (fun v => Qeq_bool (vo_timestamp v) t) given.
Proof.
  cbv zeta. unfold Diarization.sortedVisualOf. split; [| split].
  - apply sortBy_perm.
  - apply (sortBy_sorted vo_timestamp).
  - intros t. apply (sortBy_stable vo_timestamp).
Qed.

(** The end-to-end scenario of the specification. *)
Example scenario_end_to_end :
  map (fun d => (ds_speakerId d, ds_speakerName d, ds_confidence d,
                 ds_dominantExpression d, ds_visualMatch d))
    (dr_segments
       (fst (Diarization.diarize Scenarios.emptyService [Diarization.scenarioSegment]
               [Diarization.scenarioObservation] [])))
  = [("p1", "Ann", 9 # 10, happy, true)].
Proof. vm_compute. reflexivity. Qed.

(** Without visual observations every segment gets the neutral defaults
    and the quality is low. *)
Example scenario_no_visual :
  let result :=
    fst (Diarization.diarize Scenarios.emptyService Scenarios.fourSpeakers [] []) in
  map (fun d => (ds_speakerId d, ds_dominantExpression d, ds_expressionConfidence d,
                 ds_engagement d, ds_visualMatch d))
    (dr_segments result)
  = repeat ("unknown", neutral, 1 # 2, medium, false) 4
  /\ dr_quality result = low.
Proof. vm_compute. split; reflexivity. Qed.

(** Two participants with the same confidence sum: the one observed first
    in time wins, whatever the order the observations were passed in. *)
Example scenario_tie :
  map ds_speakerId
    (dr_segments
       (fst (Diarization.diarize Scenarios.emptyService [Scenarios.segment "a" 0 10]
               [Scenarios.speaking "late" 2; Scenarios.speaking "early" 1] [])))
  = ["early"].
Proof. vm_compute. reflexivity. Qed.

(** ** Insertion-ordered maps keyed by strings *)

Section StringMapFacts.
Context {V : Type}.
Implicit Types (m : list (string * V)) (k : string) (v : V).









End StringMapFacts.

(** ** Visual speaker attribution *)

Section VisualAttribution.
Import Diarization.















Variable this : SpeakerDiarizationServiceImpl.
Variable transcriptSegments : list RawTranscriptSegment.
Variable visualObservations : list VisualObservation.
Variable participantNames : list string.


End VisualAttribution.


(** ** Speaking percentages *)

Section SpeakingPercentages.
Import Diarization.













Variable this : SpeakerDiarizationServiceImpl.
Variable transcriptSegments : list RawTranscriptSegment.
Variable visualObservations : list VisualObservation.
Variable participantNames : list string.

Let participants : list DiarizedParticipant :=
  dr_participants (fst (diarize this transcriptSegments visualObservations participantNames)).



End SpeakingPercentages.



(** ** The orchestrator *)

Section PipelineFacts.
Import Pipeline.
Local Open Scope pipeline_scope.
Local Open Scope string_scope.

Variable env : Env.

Lemma bind_run {A B} (c : M A) (k : A -> M B) (m m' : Machine) (a : A) :
  c m = (Return a, m') -> bind c k m = k a m'.
Proof. intros H. unfold bind. now rewrite H. Qed.

Lemma bind_throws {A B} (c : M A) (k : A -> M B) (m m' : Machine) (e : string) :
  c m = (Throw e, m') -> bind c k m = (Throw e, m').
Proof. intros H. unfold bind. now rewrite H. Qed.

Lemma bind_modify {B} (f : Machine -> Machine) (k : unit -> M B) (m : Machine) :
  bind (modify f) k m = k tt (f m).
Proof. reflexivity. Qed.

Lemma bind_gets {A B} (f : Machine -> A) (k : A -> M B) (m : Machine) :
  bind (gets f) k m = k (f m) m.
Proof. reflexivity. Qed.

(** A [try] whose handler returns never throws. *)
Lemma tryCatch_returns {A} (body : M A) (handler : string -> M A) (m : Machine) :
  (forall e m1, exists a m2, handler e m1 = (Return a, m2)) ->
  exists a m', tryCatch body handler m = (Return a, m').
Proof.
  intros Hh. unfold tryCatch. destruct (body m) as [[a | e] m1].
  - now exists a, m1.
  - apply Hh.
Qed.

(** C7.  [start(config)] on an orchestrator whose session is active fails
    with the already-active error and changes nothing: the pipeline state,
    every other field of the orchestrator, the emitted events and the calls
    made to collaborators are as they were. *)
Theorem start_while_active_fails_unchanged (config : PipelineConfig) (m : Machine) :
  isActive m = true ->
  start env config m = (Throw "A pipeline is already active. Stop it first.", m).
Proof.
  intros Hactive. unfold start. rewrite bind_gets, Hactive. reflexivity.
Qed.






End PipelineFacts.



(** The orchestrator of the scenarios is active, so another [start] is
    refused and leaves it as it is. *)
Lemma start_while_active_fails_unchanged_witness :
  Pipeline.start Scenarios.plainEnv Scenarios.meeting Scenarios.capturingMachine
  = (Pipeline.Throw "A pipeline is already active. Stop it first.",
     Scenarios.capturingMachine).
Proof.
  apply (start_while_active_fails_unchanged Scenarios.plainEnv Scenarios.meeting
           Scenarios.capturingMachine).
  vm_compute. reflexivity.
Defined.

(** ** Bot-status polling *)

Section PollingFacts.
Import Pipeline.
Local Open Scope pipeline_scope.

Variable env : Env.

(** One pass through the body of the polling loop. *)
Lemma pollLoop_step (botId : string) (startTime maxWaitMs : Z) (fuel i : nat) (m : Machine) :
  (clock m - startTime <? maxWaitMs)%Z = true ->
  let polled :=
    pushCall (CallGetBotStatus botId i)
      (setClock (clock m + Z.of_nat (env_pollLatency env i))%Z m) in
  pollLoop env botId startTime maxWaitMs (S fuel) i m
  = match env_getBotStatus env botId i with
    | Return status =>
        if endsPolling status then (Return SawTerminal, polled)
        else pollLoop env botId startTime maxWaitMs fuel (S i)
               (setClock (clock polled + 3000)%Z polled)
    | Throw _ =>
        pollLoop env botId startTime maxWaitMs fuel (S i)
          (setClock (clock polled + 3000)%Z polled)
    end.
Proof.
  intros Hin. cbv zeta. simpl pollLoop. rewrite bind_gets, Hin.
  unfold tryCatch, getBotStatus. unfold bind at 1 2 3. unfold modify, await.
  destruct (env_getBotStatus env botId i) as [status | e].
  - unfold ret at 1. destruct (endsPolling status); [reflexivity |].
    unfold sleep. now rewrite bind_modify.
  - unfold ret at 1. cbv iota. unfold sleep. now rewrite bind_modify.
Qed.

Lemma pollLoop_timed_out (botId : string) (startTime maxWaitMs : Z) (fuel i : nat)
    (m : Machine) :
  (clock m - startTime <? maxWaitMs)%Z = false ->
  pollLoop env botId startTime maxWaitMs fuel i m
  = (Return TimedOut, pushConsole "Bot processing timed out" m).
Proof.
  intros Hout. destruct fuel; simpl pollLoop; rewrite bind_gets, Hout; reflexivity.
Qed.

(** The loop returns, without an exception, before its fuel runs out:
    every pass moves the clock by three seconds or more. *)
Lemma pollLoop_returns (botId : string) (startTime maxWaitMs : Z) (fuel : nat) :
  forall (i : nat) (m : Machine),
    (maxWaitMs <= clock m - startTime + 3000 * Z.of_nat fuel)%Z ->
    exists exit m',
      pollLoop env botId startTime maxWaitMs fuel i m = (Return exit, m')
      /\ exit <> OutOfFuel.
Proof.
  induction fuel as [| fuel IH]; intros i m Hfuel.
  - rewrite pollLoop_timed_out by (apply Z.ltb_ge; lia).
    eexists. eexists. split; [reflexivity | discriminate].
  - destruct (clock m - startTime <? maxWaitMs)%Z eqn:Hin.
    + rewrite pollLoop_step by assumption.
      assert (Hnext : exists exit m',
                pollLoop env botId startTime maxWaitMs fuel (S i)
                  (setClock
                     (clock (pushCall (CallGetBotStatus botId i)
                               (setClock (clock m + Z.of_nat (env_pollLatency env i))%Z m))
                      + 3000)%Z
                     (pushCall (CallGetBotStatus botId i)
                        (setClock (clock m + Z.of_nat (env_pollLatency env i))%Z m)))
                = (Return exit, m')
                /\ exit <> OutOfFuel).
      { apply IH. cbn [clock setClock pushCall]. lia. }
      destruct (env_getBotStatus env botId i) as [status | e]; [| exact Hnext].
      destruct (endsPolling status); [| exact Hnext].
      eexists. eexists. split; [reflexivity | discriminate].
    + rewrite pollLoop_timed_out by assumption.
      eexists. eexists. split; [reflexivity | discriminate].
Qed.

(** [waitForBotProcessing] always returns: it raises no exception and the
    bound on its iterations is never reached. *)
Lemma waitForBotProcessing_returns (botId : string) (m : Machine) :
  exists exit m',
    waitForBotProcessing env botId m = (Return exit, m') /\ exit <> OutOfFuel.
Proof.
  unfold waitForBotProcessing, waitForBotProcessingFor. rewrite bind_gets.
  apply pollLoop_returns. vm_compute pollFuel. lia.
Qed.

(** A [done] or [error] at the first poll ends the wait at once. *)
Lemma waitForBotProcessing_first_poll (botId : string) (m : Machine)
    (status : RecallBotStatus.t) :
  env_getBotStatus env botId 0 = Return (Some status) ->
  status = RecallBotStatus.done \/ status = RecallBotStatus.error ->
  waitForBotProcessing env botId m
  = (Return SawTerminal,
     pushCall (CallGetBotStatus botId 0)
       (setClock (clock m + Z.of_nat (env_pollLatency env 0))%Z m)).
Proof.
  intros Hstatus Hterminal.
  unfold waitForBotProcessing, waitForBotProcessingFor. rewrite bind_gets.
  change (pollFuel 120000) with (S (Z.to_nat 40)).
  rewrite pollLoop_step by (rewrite Z.sub_diag; reflexivity).
  rewrite Hstatus. now destruct Hterminal as [-> | ->].
Qed.

(** Polling touches the clock, the console and the call log only. *)
Lemma pollLoop_frame (botId : string) (startTime maxWaitMs : Z) (fuel : nat) :
  forall (i : nat) (m : Machine),
    let m' := snd (pollLoop env botId startTime maxWaitMs fuel i m) in
    audioFilePath m' = audioFilePath m /\ state m' = state m.
Proof.
  cbv zeta. induction fuel as [| fuel IH]; intros i m.
  - destruct (clock m - startTime <? maxWaitMs)%Z eqn:Hin.
    + simpl pollLoop. rewrite bind_gets, Hin. now split.
    + rewrite pollLoop_timed_out by assumption. now split.
  - destruct (clock m - startTime <? maxWaitMs)%Z eqn:Hin.
    + rewrite pollLoop_step by assumption.
      destruct (env_getBotStatus env botId i) as [status | e].
      * destruct (endsPolling status); [now split |].
        match goal with |- context [pollLoop _ _ _ _ fuel (S i) ?m1] =>
          destruct (IH (S i) m1) as [Ha Hs] end.
        rewrite Ha, Hs. now split.
      * match goal with |- context [pollLoop _ _ _ _ fuel (S i) ?m1] =>
          destruct (IH (S i) m1) as [Ha Hs] end.
        rewrite Ha, Hs. now split.
    + rewrite pollLoop_timed_out by assumption. now split.
Qed.

Lemma waitForBotProcessing_frame (botId : string) (m : Machine) :
  audioFilePath (snd (waitForBotProcessing env botId m)) = audioFilePath m.
Proof.
  unfold waitForBotProcessing, waitForBotProcessingFor. rewrite bind_gets.
  apply pollLoop_frame.
Qed.

End PollingFacts.

(** C4, on the code.  A bot that reports [fatal] does not end the wait:
    with polls that answer at once, [waitForBotProcessing] polls forty
    times, three seconds apart, and gives up at the ceiling of 120 seconds
    with the warning; a bot that reports [done] or [error] ends it at the
    first poll. *)
Theorem waitForBotProcessing_fatal_polls_until_ceiling :
  let fatalRun :=
    Pipeline.waitForBotProcessing Scenarios.fatalBotEnv "bot-1" (Pipeline.newMachine 0) in
  let doneRun :=
    Pipeline.waitForBotProcessing Scenarios.plainEnv "bot-1" (Pipeline.newMachine 0) in
  Pipeline.endsPolling (Some RecallBotStatus.fatal) = false
  /\ fst fatalRun = Pipeline.Return Pipeline.TimedOut
  /\ Pipeline.clock (snd fatalRun) = 120000%Z
  /\ Spec.statusPolls (Pipeline.calls (snd fatalRun)) = 40%nat
  /\ Pipeline.console (snd fatalRun) = ["Bot processing timed out"]
  /\ fst doneRun = Pipeline.Return Pipeline.SawTerminal
  /\ Pipeline.clock (snd doneRun) = 0%Z
  /\ Spec.statusPolls (Pipeline.calls (snd doneRun)) = 1%nat.
Proof.
  cbv zeta. repeat split; vm_compute; reflexivity.
Qed.

(** ** [stop] *)

Section StopFacts.
Import Pipeline.
Local Open Scope pipeline_scope.
Local Open Scope string_scope.

Variable env : Env.

Lemma emitStatusChanged_run (m : Machine) :
  emitStatusChanged m
  = (Return tt,
     pushEvent {| ev_type := PipelineEventType.status_changed;
                  ev_data := StateData (state m); ev_timestamp := clock m |} m).
Proof. reflexivity. Qed.

(** Runs the [emit('status_changed', this.state)] at the head of the goal. *)
Ltac run_emitStatusChanged :=
  rewrite (bind_run _ _ _ _ _ (emitStatusChanged_run _)).

Lemma stopCapture_returns (m : Machine) :
  exists m',
    stopCapture env m = (Return tt, m')
    /\ audioFilePath m' = audioFilePath m
    /\ ps_botId (state m') = ps_botId (state m).
Proof.
  unfold stopCapture. rewrite bind_modify.
  destruct (env_electron env) as [electron |]; [| eexists; repeat split].
  destruct (el_stopCapture electron) as [answer |]; [| eexists; repeat split].
  unfold bind, tryCatch, awaitHost.
  destruct answer as [[] | cause]; eexists; repeat split.
Qed.

Lemma collectFromBot_audio (m : Machine) :
  audioFromRecording env (ps_botId (state m)) (audioFilePath m)
    (audioFilePath (snd (collectFromBot env m))).
Proof.
  assert (Hsame : forall after,
            after = audioFilePath m ->
            audioFromRecording env (ps_botId (state m)) (audioFilePath m) after).
  { intros after ->. now left. }
  unfold collectFromBot. rewrite bind_gets.
  destruct (Js.truthy (ps_botId (state m))); [| now apply Hsame].
  set (id := Js.strOr (ps_botId (state m)) "") in *.
  unfold tryCatch. unfold bind at 1. unfold await at 1.
  destruct (env_stopBot env id) as [[] | e]; [| now apply Hsame].
  match goal with |- context [bind (waitForBotProcessing env id) _ ?m1] =>
    destruct (waitForBotProcessing_returns env id m1) as (exit & m2 & Hwait & _);
    pose proof (waitForBotProcessing_frame env id m1) as Hframe
  end.
  rewrite Hwait in Hframe. simpl in Hframe.
  rewrite (bind_run _ _ _ _ _ Hwait).
  unfold bind at 1. unfold await at 1.
  destruct (env_getRecording env id) as [recording | e] eqn:Hrec;
    [| now apply Hsame].
  assert (Htranscript : forall m3,
            audioFilePath
              (snd (let (o, m') :=
                      (recallTranscript <- await (CallGetTranscript id) (env_getTranscript env id) ;;
                       match recallTranscript with
                       | Some t => ret (map fromRecall (rtr_segments t))
                       | None => ret []
                       end)%pipeline m3 in
                    match o with
                    | Return a => (Return a, m')
                    | Throw e =>
                        (warn ("Bot processing failed, will try local transcription: " ++ e) ;;
                         ret [])%pipeline m'
                    end))
            = audioFilePath m3).
  { intros m3. unfold bind, await.
    destruct (env_getTranscript env id) as [[t |] | e]; reflexivity. }
  destruct recording as [r |].
  - destruct (Js.truthy (rec_audioUrl r)) eqn:Haudio.
    + rewrite bind_modify. rewrite Htranscript. right. exists r.
      split; [exact Hrec | split; [exact Haudio | reflexivity]].
    + rewrite (bind_run _ _ _ _ _ (eq_refl : ret tt _ = (Return tt, _))).
      rewrite Htranscript. now apply Hsame.
  - rewrite (bind_run _ _ _ _ _ (eq_refl : ret tt _ = (Return tt, _))).
    rewrite Htranscript. now apply Hsame.
Qed.

(** The block that talks to the bot never throws: its [catch] only logs. *)
Lemma collectFromBot_returns (m : Machine) :
  exists segs m', collectFromBot env m = (Return segs, m').
Proof.
  unfold collectFromBot. rewrite bind_gets.
  destruct (Js.truthy (ps_botId (state m))).
  - apply tryCatch_returns. intros e m1. eexists. eexists. reflexivity.
  - eexists. eexists. reflexivity.
Qed.

Lemma botPhase_returns (m : Machine) :
  exists segs m',
    botPhase env m = (Return segs, m')
    /\ audioFromRecording env (ps_botId (state m)) (audioFilePath m) (audioFilePath m').
Proof.
  unfold botPhase.
  destruct (stopCapture_returns m) as (m1 & H1 & Haudio & Hbot).
  rewrite (bind_run _ _ _ _ _ H1).
  unfold stopDurationTimer, setStatus. rewrite !bind_modify.
  run_emitStatusChanged.
  match goal with |- context [collectFromBot env ?m2] =>
    destruct (collectFromBot_returns m2) as (segs & m' & Hrun);
    pose proof (collectFromBot_audio m2) as Hfrom
  end.
  exists segs, m'. split; [exact Hrun |].
  rewrite Hrun in Hfrom. simpl snd in Hfrom.
  assert (Hb : ps_botId (state m) = ps_botId (state m1)) by (symmetry; exact Hbot).
  assert (Ha : audioFilePath m = audioFilePath m1) by (symmetry; exact Haudio).
  rewrite Hb, Ha. clear -Hfrom.
  destruct (durationTimer m1); exact Hfrom.
Qed.

Lemma handedToDiarization_app (l l' : list Call) :
  Spec.handedToDiarization (l ++ l') = (Spec.handedToDiarization l ++ Spec.handedToDiarization l')%list.
Proof. apply flat_map_app. Qed.

Lemma locallyTranscribed_app (l l' : list Call) :
  Spec.locallyTranscribed (l ++ l') = (Spec.locallyTranscribed l ++ Spec.locallyTranscribed l')%list.
Proof. apply flat_map_app. Qed.

(** The local-transcription block: it runs whenever an audio file path is
    set, and its segments win whenever there are any. *)
Lemma transcribeLocally_run (fromBot : list RawTranscriptSegment) (m : Machine) :
  exists m',
    transcribeLocally env fromBot m
    = (Return (chosenTranscript env fromBot (audioFilePath m)), m')
    /\ Spec.locallyTranscribed (calls m')
       = (Spec.locallyTranscribed (calls m)
          ++ (if Js.truthy (audioFilePath m) then [Js.strOr (audioFilePath m) ""] else []))%list
    /\ Spec.handedToDiarization (calls m') = Spec.handedToDiarization (calls m).
Proof.
  unfold transcribeLocally, chosenTranscript. rewrite bind_gets.
  destruct (Js.truthy (audioFilePath m)).
  - unfold tryCatch, bind, await.
    destruct (env_transcribeFile env (Js.strOr (audioFilePath m) "")) as [whisperResult | e].
    + destruct (tr_segments whisperResult); eexists; (split; [reflexivity |]); simpl;
        rewrite locallyTranscribed_app, handedToDiarization_app; simpl;
        now rewrite app_nil_r.
    + eexists. split; [reflexivity |]. simpl.
      rewrite locallyTranscribed_app, handedToDiarization_app. simpl.
      now rewrite app_nil_r.
  - eexists. split; [reflexivity |]. now rewrite app_nil_r.
Qed.

(** The rest of the [try] block either completes with a review or throws
    what the review generator threw; either way the transcript it was
    given is the one handed to [diarize]. *)
Lemma analyzeAndReview_run (transcriptSegments : list RawTranscriptSegment) (m : Machine) :
  exists m',
    ((exists review,
        analyzeAndReview env transcriptSegments m = (Return (Some review), m')
        /\ ps_status (state m') = PipelineStatus.complete
        /\ ps_reviewId (state m') = Some (mr_id review))
     \/ (exists e, analyzeAndReview env transcriptSegments m = (Throw e, m')))
    /\ Spec.handedToDiarization (calls m')
       = (Spec.handedToDiarization (calls m) ++ [transcriptSegments])%list
    /\ Spec.locallyTranscribed (calls m') = Spec.locallyTranscribed (calls m).
Proof.
  unfold analyzeAndReview.
  match goal with |- context [bind ?c _ m] =>
    assert (Hwarn : exists m0, c m = (Return tt, m0) /\ calls m0 = calls m)
  end.
  { destruct transcriptSegments; eexists; split; reflexivity. }
  destruct Hwarn as (m0 & Hwarn & Hcalls0).
  rewrite (bind_run _ _ _ _ _ Hwarn).
  unfold setStatus. rewrite bind_modify.
  run_emitStatusChanged.
  rewrite !bind_gets. cbv zeta.
  rewrite !bind_modify, !bind_gets, !bind_modify.
  run_emitStatusChanged.
  unfold bind at 1. unfold await at 1.
  match goal with |- context [env_generateReview env ?input] =>
    destruct (env_generateReview env input) as [review | e]
  end.
  - eexists. split; [left; exists review; split; [reflexivity |] |].
    + split; reflexivity.
    + cbn [calls pushCall pushEvent onState setDiarization setAudioFilePath setConfig
             storeMeetingInMoltbook resetState emit emitStatusChanged bind modify gets ret
             fst snd].
      rewrite Hcalls0, <- !app_assoc, handedToDiarization_app, locallyTranscribed_app.
      simpl. now rewrite app_nil_r.
  - eexists. split; [right; exists e; reflexivity |].
    cbn [calls pushCall pushEvent onState setDiarization].
    rewrite Hcalls0, <- !app_assoc, handedToDiarization_app, locallyTranscribed_app.
    simpl. now rewrite app_nil_r.
Qed.

Lemma stopFailed_run (message : string) (m : Machine) :
  exists m',
    stopFailed message m = (Return None, m')
    /\ ps_status (state m') = PipelineStatus.error
    /\ ps_error (state m') = Some message
    /\ Spec.errorEvents (emitted m')
       = (Spec.errorEvents (emitted m)
          ++ [ {| ev_type := PipelineEventType.error; ev_data := ErrorData message;
                  ev_timestamp := clock m |} ])%list
    /\ calls m' = calls m.
Proof.
  eexists. split; [reflexivity |]. simpl. repeat split.
  unfold Spec.errorEvents. rewrite !filter_app. simpl. now rewrite app_nil_r.
Qed.

(** A [stop] on an active orchestrator, block by block. *)
Lemma stop_active_run (m : Machine) :
  isActive m = true ->
  exists fromBot afterBot review final,
    botPhase env m = (Return fromBot, afterBot)
    /\ audioFromRecording env (ps_botId (state m)) (audioFilePath m) (audioFilePath afterBot)
    /\ stop env m = (Return review, final)
    /\ match review with
       | Some r =>
           ps_status (state final) = PipelineStatus.complete
           /\ ps_reviewId (state final) = Some (mr_id r)
       | None =>
           ps_status (state final) = PipelineStatus.error
           /\ exists message, ps_error (state final) = Some message
       end
    /\ Spec.locallyTranscribed (calls final)
       = (Spec.locallyTranscribed (calls afterBot)
          ++ (if Js.truthy (audioFilePath afterBot)
              then [Js.strOr (audioFilePath afterBot) ""] else []))%list
    /\ Spec.handedToDiarization (calls final)
       = (Spec.handedToDiarization (calls afterBot)
          ++ [chosenTranscript env fromBot (audioFilePath afterBot)])%list.
Proof.
  intros Hactive.
  destruct (botPhase_returns m) as (fromBot & afterBot & Hbot & Haudio).
  exists fromBot, afterBot.
  unfold stop. rewrite bind_gets, Hactive. cbn [negb]. unfold tryCatch.
  pose proof Hbot as Hbot'. unfold botPhase in Hbot'.
  destruct (stopCapture_returns m) as (m1 & H1 & _).
  rewrite (bind_run _ _ _ _ _ H1) in Hbot'. rewrite (bind_run _ _ _ _ _ H1).
  unfold stopDurationTimer, setStatus in Hbot' |- *.
  rewrite !bind_modify in Hbot'. rewrite !bind_modify.
  rewrite (bind_run _ _ _ _ _ (emitStatusChanged_run _)) in Hbot'.
  run_emitStatusChanged.
  rewrite (bind_run _ _ _ _ _ Hbot').
  rewrite bind_modify.
  run_emitStatusChanged.
  match goal with |- context [bind (transcribeLocally env fromBot) _ ?mT] =>
    destruct (transcribeLocally_run fromBot mT) as (m2 & Hlocal & Hpaths & Hhanded)
  end.
  rewrite (bind_run _ _ _ _ _ Hlocal).
  cbn [audioFilePath calls pushEvent onState] in Hpaths, Hhanded |- *.
  destruct (analyzeAndReview_run (chosenTranscript env fromBot (audioFilePath afterBot)) m2)
    as (m3 & [(review & Hrun & Hstatus & Hid) | (e & Hrun)] & Hhanded3 & Hpaths3);
    rewrite Hrun.
  - exists (Some review), m3.
    split; [exact Hbot |]. split; [exact Haudio |].
    split; [reflexivity |]. split; [now split |].
    rewrite Hpaths3, Hhanded3, Hpaths, Hhanded. now split.
  - destruct (stopFailed_run e m3) as (m4 & Hfailed & Hstatus & Herror & _ & Hcalls).
    exists None, m4.
    split; [exact Hbot |]. split; [exact Haudio |]. split; [exact Hfailed |].
    split; [split; [exact Hstatus | now exists e] |].
    rewrite Hcalls, Hpaths3, Hhanded3, Hpaths, Hhanded. now split.
Qed.


(** C5, amended.  In a [stop] on an active orchestrator, let [fromBot] be
    the transcript the bot phase ends with and [afterBot] the orchestrator
    at that point.  Local transcription is called exactly when [afterBot]
    holds an audio file path, whether or not [fromBot] is empty; the bot
    phase leaves the path as it was or sets it to the [audioUrl] of the
    bot's recording.  The transcript handed to [diarize] is the local one
    when that call returns at least one segment, and [fromBot] when there
    is no audio file path, the call fails or it returns no segment. *)
Theorem stop_transcript_choice (m : Machine) :
  isActive m = true ->
  exists fromBot afterBot,
    botPhase env m = (Return fromBot, afterBot)
    /\ audioFromRecording env (ps_botId (state m)) (audioFilePath m) (audioFilePath afterBot)
    /\ Spec.locallyTranscribed (calls (snd (stop env m)))
       = (Spec.locallyTranscribed (calls afterBot)
          ++ (if Js.truthy (audioFilePath afterBot)
              then [Js.strOr (audioFilePath afterBot) ""] else []))%list
    /\ Spec.handedToDiarization (calls (snd (stop env m)))
       = (Spec.handedToDiarization (calls afterBot)
          ++ [chosenTranscript env fromBot (audioFilePath afterBot)])%list.
Proof.
  intros Hactive.
  destruct (stop_active_run m Hactive)
    as (fromBot & afterBot & review & final & Hbot & Haudio & Hrun & _ & Hpaths & Hhanded).
  exists fromBot, afterBot. rewrite Hrun. now repeat split.
Qed.

End StopFacts.


(** The bot returns a transcript of one segment and a recording with an
    audio URL, and local transcription of the audio returns one segment. *)
Lemma stop_transcript_choice_witness :
  let m := snd (Pipeline.start Scenarios.bothTranscriptsEnv Scenarios.meeting
                  (Pipeline.newMachine 1000)) in
  exists fromBot afterBot,
    botPhase Scenarios.bothTranscriptsEnv m = (Pipeline.Return fromBot, afterBot)
    /\ audioFromRecording Scenarios.bothTranscriptsEnv
         (Pipeline.ps_botId (Pipeline.state m)) (Pipeline.audioFilePath m)
         (Pipeline.audioFilePath afterBot)
    /\ Spec.locallyTranscribed
         (Pipeline.calls (snd (Pipeline.stop Scenarios.bothTranscriptsEnv m)))
       = (Spec.locallyTranscribed (Pipeline.calls afterBot)
          ++ (if Js.truthy (Pipeline.audioFilePath afterBot)
              then [Js.strOr (Pipeline.audioFilePath afterBot) ""] else []))%list
    /\ Spec.handedToDiarization
         (Pipeline.calls (snd (Pipeline.stop Scenarios.bothTranscriptsEnv m)))
       = (Spec.handedToDiarization (Pipeline.calls afterBot)
          ++ [chosenTranscript Scenarios.bothTranscriptsEnv fromBot
                (Pipeline.audioFilePath afterBot)])%list.
Proof.
  apply (stop_transcript_choice Scenarios.bothTranscriptsEnv
           (snd (Pipeline.start Scenarios.bothTranscriptsEnv Scenarios.meeting
                   (Pipeline.newMachine 1000)))).
  vm_compute. reflexivity.
Defined.

(** C5 as stated fails: the bot returned a transcript that is not empty,
    and still the recorded audio is transcribed locally and the local
    transcript, not the bot's, is handed to [diarize]. *)
Lemma stop_transcript_choice_counterexample :
  let m := snd (Pipeline.start Scenarios.bothTranscriptsEnv Scenarios.meeting
                  (Pipeline.newMachine 1000)) in
  let final := snd (Pipeline.stop Scenarios.bothTranscriptsEnv m) in
  fst (botPhase Scenarios.bothTranscriptsEnv m)
  = Pipeline.Return [Pipeline.fromRecall Scenarios.botSegment]
  /\ Spec.locallyTranscribed (Pipeline.calls final) = ["https://recall.example/a.wav"]
  /\ Spec.handedToDiarization (Pipeline.calls final)
     = [[Pipeline.fromWhisper Scenarios.localSegment]]
  /\ Pipeline.fromWhisper Scenarios.localSegment <> Pipeline.fromRecall Scenarios.botSegment.
Proof.
  cbv zeta. repeat split; try (vm_compute; reflexivity).
  vm_compute. discriminate.
Qed.
